(** * The embedding server ([src/docker/embedding-server.py])

    A shallow embedding of the Flask application: the JSON values the
    handlers read and answer with, the Python operations the handler
    body performs on them (truth value, [in], subscription, [isinstance]),
    the numpy arrays the model hands back, and the two routes as
    computations over the process state. *)

From Stdlib Require Import ZArith PrimFloat.
From stdpp Require Import gmap strings list fin_maps pretty.

Set Warnings "-register-all".
Open Scope string_scope.

(** ** Python values *)

(** What [request.get_json()] yields and what [jsonify] is given: the
    values [json.loads] builds.  A JSON object is a [dict] keyed by
    strings. *)
Inductive pyval :=
| PNone
| PBool (b : bool)
| PInt (n : Z)
| PFloat (x : float)
| PStr (s : string)
| PList (items : list pyval)
| PDict (d : gmap string pyval).

(** Instances of [Exception], which is what the handler's [except] clause
    names. *)
Inductive exn :=
| TypeError (msg : string)
| IndexError (msg : string)
| KeyError (key : string)
| HTTPException (code : nat) (name description : string)
| LibraryError (cls msg : string).

(** [str(e)] *)
Definition str (e : exn) : string :=
  match e with
  | TypeError msg => msg
  | IndexError msg => msg
  | KeyError key => "'" +:+ key +:+ "'"
  | HTTPException code name description =>
      pretty code +:+ " " +:+ name +:+ ": " +:+ description
  | LibraryError _ msg => msg
  end.

(** An expression either has a value or raises. *)
Inductive py (A : Type) :=
| Ok (a : A)
| Raise (e : exn).
Arguments Ok {A} a.
Arguments Raise {A} e.

(** [bool(v)] *)
Definition truthy (v : pyval) : bool :=
  match v with
  | PNone => false
  | PBool b => b
  | PInt n => negb (n =? 0)%Z
  | PFloat x => negb (PrimFloat.eqb x 0%float)
  | PStr s => negb (String.eqb s "")
  | PList items => match items with [] => false | _ :: _ => true end
  | PDict d => negb (size d =? 0)%nat
  end.

(** [isinstance(v, str)] *)
Definition isinstance_str (v : pyval) : bool :=
  match v with PStr _ => true | _ => false end.

(** [key == v] for a string [key]: only an equal string compares equal. *)
Definition str_eq (key : string) (v : pyval) : bool :=
  match v with PStr s => String.eqb key s | _ => false end.

(** [key in s] for two strings: [s] has [key] as a substring. *)
Definition str_contains (key s : string) : bool :=
  match String.index 0 key s with Some _ => true | None => false end.

(** [key in v] for a string [key]: key membership in a dict, element
    membership in a list, substring in a string; the other values are not
    iterable. *)
Definition py_in (key : string) (v : pyval) : py bool :=
  match v with
  | PDict d => Ok (match d !! key with Some _ => true | None => false end)
  | PList items => Ok (existsb (str_eq key) items)
  | PStr s => Ok (str_contains key s)
  | PNone => Raise (TypeError "argument of type 'NoneType' is not iterable")
  | PBool _ => Raise (TypeError "argument of type 'bool' is not iterable")
  | PInt _ => Raise (TypeError "argument of type 'int' is not iterable")
  | PFloat _ => Raise (TypeError "argument of type 'float' is not iterable")
  end.

(** [v[key]] for a string [key]. *)
Definition py_getitem (v : pyval) (key : string) : py pyval :=
  match v with
  | PDict d => match d !! key with Some x => Ok x | None => Raise (KeyError key) end
  | PList _ => Raise (TypeError "list indices must be integers or slices, not str")
  | PStr _ => Raise (TypeError "string indices must be integers, not 'str'")
  | PNone => Raise (TypeError "'NoneType' object is not subscriptable")
  | PBool _ => Raise (TypeError "'bool' object is not subscriptable")
  | PInt _ => Raise (TypeError "'int' object is not subscriptable")
  | PFloat _ => Raise (TypeError "'float' object is not subscriptable")
  end.

(** ** numpy arrays *)

(** What [model.encode] returns: an array of any depth; a batch of
    embeddings is an array of rows, each an array of numbers. *)
Inductive ndarray :=
| Scalar (x : float)
| Array (items : list ndarray).

(** [a.tolist()] *)
Fixpoint tolist (a : ndarray) : pyval :=
  match a with
  | Scalar x => PFloat x
  | Array items => PList (map tolist items)
  end.

(** [a[0]] *)
Definition np_first (a : ndarray) : py ndarray :=
  match a with
  | Scalar _ => Raise (IndexError "invalid index to scalar variable.")
  | Array [] => Raise (IndexError "index 0 is out of bounds for axis 0 with size 0")
  | Array (x :: _) => Ok x
  end.

(** [for emb in a] *)
Definition np_iter (a : ndarray) : py (list ndarray) :=
  match a with
  | Scalar _ => Raise (TypeError "iteration over a 0-d array")
  | Array items => Ok items
  end.

(** A JSON value built from numbers and lists alone: no string, no
    [null], no object. *)
Fixpoint numbers_only (v : pyval) : bool :=
  match v with
  | PFloat _ => true
  | PList items => forallb numbers_only items
  | _ => false
  end.

(** ** The embedding library *)

(** [sentence_transformers], which the server imports and does not
    implement: the class of loaded models, its constructor (which raises
    when the model cannot be loaded) and [model.encode].  [encode] is
    handed whatever the handler passes on, so its argument is any value. *)
Class SentenceTransformers := {
  SentenceTransformer : Type;
  load : string -> py SentenceTransformer;
  encode : SentenceTransformer -> pyval -> py ndarray;
}.

(** ** The process *)

Section Server.
Context `{SentenceTransformers}.

(** The module-level names the handlers read (source lines 11 and 13). *)
Record Globals := {
  model_name : string;
  model : SentenceTransformer;
}.

(** The running process: its globals and what it has printed so far. *)
Record Process := {
  globals : Globals;
  stdout : list string;
}.

(** A statement sequence: it runs in a process, leaves a process behind and
    either yields a value or raises. *)
Definition M (A : Type) : Type := Process -> py A * Process.

Definition ret {A} (a : A) : M A := fun p => (Ok a, p).

Definition bind {A B} (c : M A) (k : A -> M B) : M B :=
  fun p =>
    match c p with
    | (Ok a, p') => k a p'
    | (Raise e, p') => (Raise e, p')
    end.

(** Evaluate an expression that may raise. *)
Definition lift {A} (x : py A) : M A := fun p => (x, p).

(** Read a global. *)
Definition global {A} (f : Globals -> A) : M A := fun p => (Ok (f (globals p)), p).

(** [print(line)] *)
Definition print (line : string) : M unit :=
  fun p => (Ok tt, {| globals := globals p; stdout := stdout p ++ [line] |}).

(** [try: body / except Exception as e: handler(e)], for a handler that
    returns. *)
Definition try_except {A} (body : M A) (handler : exn -> M A) : M A :=
  fun p =>
    match body p with
    | (Ok a, p') => (Ok a, p')
    | (Raise e, p') => handler e p'
    end.

End Server.

Declare Scope py_scope.
Delimit Scope py_scope with py.
Notation "x <- c ;; k" := (bind c (fun x => k))
  (at level 100, c at next level, right associativity) : py_scope.
Notation "c ;;; k" := (bind c (fun _ => k))
  (at level 100, right associativity) : py_scope.

Open Scope py_scope.

(** ** The web framework *)

(** What a handler sees of the request Flask hands it: the outcome of
    [request.get_json()].  With its default arguments the call returns the
    parsed body ([None] for the body [null]) and raises werkzeug's
    [BadRequest] when the body cannot be parsed as JSON, an empty body
    included.  A request that does not announce JSON makes recent
    versions raise as well, and older ones return [None]. *)
Record Request := {
  get_json : py pyval;
}.

Definition BadRequest : exn :=
  HTTPException 400 "Bad Request"
    "The browser (or proxy) sent a request that this server could not understand.".

(** A response: the JSON value in its body and the status code. *)
Record Response := {
  body : pyval;
  status : nat;
}.

(** [jsonify(v)] *)
Definition jsonify (v : pyval) : Response := {| body := v; status := 200 |}.

(** [return response, code] *)
Definition with_status (r : Response) (code : nat) : Response :=
  {| body := body r; status := code |}.

(** [{'error': message}] *)
Definition error_body (message : string) : pyval :=
  PDict {[ "error" := PStr message ]}.

(** The two routes the application registers. *)
Inductive HttpRequest :=
| POST_embed (request : Request)
| GET_health.

(** ** The application *)

Section App.
Context `{SentenceTransformers}.

(** Lines 11 to 14: the model identifier is read from the environment and
    the model is loaded; when loading raises, the process ends before it
    serves anything. *)
Definition startup (environ : gmap string string) : py Process :=
  let model_name :=
    default "sentence-transformers/all-MiniLM-L6-v2" (environ !! "MODEL_ID") in
  match load model_name with
  | Ok model =>
      Ok {| globals := {| model_name := model_name; model := model |};
            stdout := ["Loading model: " +:+ model_name;
                       "Model loaded successfully!"] |}
  | Raise e => Raise e
  end.

(** Lines 27 to 30: a single string is wrapped in a list, anything else
    is passed on as it came. *)
Definition texts_of (inputs : pyval) : pyval :=
  if isinstance_str inputs then PList [inputs] else inputs.

(** Lines 19 to 41: the body of the [try]. *)
Definition embed_try (request : Request) : M Response :=
  data <- lift (get_json request);;
  missing <- (if negb (truthy data) then ret true
              else found <- lift (py_in "inputs" data);; ret (negb found));;
  if (missing : bool) then
    ret (with_status (jsonify (error_body "Missing inputs field")) 400)
  else
    inputs <- lift (py_getitem data "inputs");;
    let texts := texts_of inputs in
    m <- global model;;
    embeddings <- lift (encode m texts);;
    if isinstance_str inputs then
      first <- lift (np_first embeddings);;
      ret (jsonify (tolist first))
    else
      embs <- lift (np_iter embeddings);;
      ret (jsonify (PList (map tolist embs))).

(** Lines 43 to 45: the [except] clause. *)
Definition embed_except (e : exn) : M Response :=
  print ("Error generating embeddings: " +:+ str e);;;
  ret (with_status (jsonify (error_body (str e))) 500).

(** [embed()], the view of [POST /embed]. *)
Definition embed (request : Request) : M Response :=
  try_except (embed_try request) embed_except.

(** [health()], the view of [GET /health]. *)
Definition health : M Response :=
  name <- global model_name;;
  ret (jsonify (PDict (<[ "status" := PStr "ok" ]> {[ "model" := PStr name ]}))).

(** Flask answers with what the view returns; an exception a view lets
    through is answered with status 500. *)
Definition dispatch (view : M Response) (p : Process) : Response * Process :=
  match view p with
  | (Ok r, p') => (r, p')
  | (Raise _, p') => ({| body := PStr "Internal Server Error"; status := 500 |}, p')
  end.

Definition handle (req : HttpRequest) : Process -> Response * Process :=
  dispatch (match req with
            | POST_embed request => embed request
            | GET_health => health
            end).

(** The process after it has served the requests of [history], oldest
    first. *)
Fixpoint serve (history : list HttpRequest) (p : Process) : Process :=
  match history with
  | [] => p
  | req :: rest => serve rest (snd (handle req p))
  end.

(** The answers the process gives to the requests of [history], served
    one after another. *)
Fixpoint replies (history : list HttpRequest) (p : Process) : list Response :=
  match history with
  | [] => []
  | req :: rest => fst (handle req p) :: replies rest (snd (handle req p))
  end.

End App.

(** ** A stub encoder *)

(** A library to run the application on: every non-empty name loads, and
    [encode] embeds a list of strings row by row and raises on anything
    else. *)
Definition stub_embedding (text : string) : list float :=
  if String.eqb text "a" then [1%float; 0%float] else [0%float; 1%float].

Fixpoint stub_rows (items : list pyval) : py (list ndarray) :=
  match items with
  | [] => Ok []
  | PStr s :: rest =>
      match stub_rows rest with
      | Ok rows => Ok (Array (map Scalar (stub_embedding s)) :: rows)
      | Raise e => Raise e
      end
  | _ :: _ => Raise (TypeError "expected str")
  end.

Definition stub_encode (v : pyval) : py ndarray :=
  match v with
  | PList items =>
      match stub_rows items with
      | Ok rows => Ok (Array rows)
      | Raise e => Raise e
      end
  | _ => Raise (TypeError "object has no len()")
  end.

Definition stub_library : SentenceTransformers := {|
  SentenceTransformer := unit;
  load name :=
    if String.eqb name "" then Raise (LibraryError "OSError" "no model named") else Ok tt;
  encode _ := stub_encode;
|}.

Definition stub_process : @Process stub_library :=
  {| globals := {| model_name := "stub"; model := tt : @SentenceTransformer stub_library |};
     stdout := [] |}.

(** The stub process as [startup] leaves it under [MODEL_ID=my-model]. *)
Definition stub_started : @Process stub_library :=
  {| globals := {| model_name := "my-model"; model := tt : @SentenceTransformer stub_library |};
     stdout := ["Loading model: my-model"; "Model loaded successfully!"] |}.


(** ** What the specification speaks of *)

Section Contracts.
Context `{SentenceTransformers}.

(** Spec 4.1: the loaded model maps an ordered sequence of strings to the
    ordered sequence of their vectors, [embedding t] being the vector of
    the text [t]. *)
Definition encodes (m : SentenceTransformer) (embedding : string -> list float) : Prop :=
  forall texts : list string,
    encode m (PList (map PStr texts))
    = Ok (Array (map (fun t => Array (map Scalar (embedding t))) texts)).

(** Spec 4.2, error handling: an exception [e] is raised while the request
    is parsed, validated or encoded (or while the result is shaped). *)
Inductive raised (request : Request) (p : Process) (e : exn) : Prop :=
| raised_parsing :
    get_json request = Raise e ->
    raised request p e
| raised_validating data :
    get_json request = Ok data ->
    truthy data = true ->
    py_in "inputs" data = Raise e \/
    (py_in "inputs" data = Ok true /\ py_getitem data "inputs" = Raise e) ->
    raised request p e
| raised_encoding data inputs :
    get_json request = Ok data ->
    truthy data = true ->
    py_in "inputs" data = Ok true ->
    py_getitem data "inputs" = Ok inputs ->
    encode (model (globals p)) (texts_of inputs) = Raise e ->
    raised request p e
| raised_shaping data inputs embeddings :
    get_json request = Ok data ->
    truthy data = true ->
    py_in "inputs" data = Ok true ->
    py_getitem data "inputs" = Ok inputs ->
    encode (model (globals p)) (texts_of inputs) = Ok embeddings ->
    (if isinstance_str inputs then np_first embeddings = Raise e
     else np_iter embeddings = Raise e) ->
    raised request p e.

End Contracts.

(** Spec 4.2, validation: the parsed body contains the key [key]. *)
Definition contains_key (data : pyval) (key : string) : bool :=
  match data with
  | PDict d => match d !! key with Some _ => true | None => false end
  | _ => false
  end.

(** Spec 4.2, validation: [inputs] is a string or a sequence of strings. *)
Definition string_or_strings (inputs : pyval) : bool :=
  match inputs with
  | PStr _ => true
  | PList items => forallb isinstance_str items
  | _ => false
  end.

(** * Properties *)

(** The membership test and the subscription of lines 21 and 24 on the
    kinds of value a body can parse to. *)
Example py_in_key : py_in "inputs" (PDict {[ "inputs" := PNone ]}) = Ok true.
Proof. reflexivity. Qed.

Example py_in_empty_object : py_in "inputs" (PDict ∅) = Ok false.
Proof. reflexivity. Qed.

Example py_in_element : py_in "inputs" (PList [PInt 3; PStr "inputs"]) = Ok true.
Proof. reflexivity. Qed.

Example py_in_substring : py_in "inputs" (PStr "my inputs") = Ok true.
Proof. reflexivity. Qed.

Example py_in_number :
  py_in "inputs" (PFloat 1.5) = Raise (TypeError "argument of type 'float' is not iterable").
Proof. reflexivity. Qed.

Example py_getitem_list :
  py_getitem (PList [PStr "inputs"]) "inputs"
  = Raise (TypeError "list indices must be integers or slices, not str").
Proof. reflexivity. Qed.

Example truthy_values :
  map truthy [PNone; PBool false; PInt 0; PFloat 0; PStr ""; PList []; PDict ∅;
              PInt 2; PStr "x"; PList [PNone]; PDict {[ "a" := PNone ]}]
  = [false; false; false; false; false; false; false; true; true; true; true].
Proof. reflexivity. Qed.

Section Properties.
Context `{SentenceTransformers}.
Implicit Types (p : Process) (request : Request) (data inputs : pyval) (e : exn).

(** Unfold the statement sequences of the handlers. *)
Ltac run :=
  unfold embed, embed_except, try_except, embed_try, health, bind, lift, ret,
    global, print; simpl.

(** A dict with an entry is not empty. *)
Lemma truthy_dict (d : gmap string pyval) key v :
  d !! key = Some v -> truthy (PDict d) = true.
Proof.
  intros Hk. simpl. apply negb_true_iff, Nat.eqb_neq.
  intros Hsize. apply map_size_empty_iff in Hsize. subst d.
  by rewrite lookup_empty in Hk.
Qed.

(** The body of the [try] prints nothing and assigns no global. *)
Lemma embed_try_frame request p : snd (embed_try request p) = p.
Proof.
  run. repeat (case_match; simpl; simplify_eq; try done).
Qed.

(** What the body of the [try] comes to once [inputs] has been found in
    the parsed object. *)
Lemma embed_try_inputs request p (d : gmap string pyval) inputs :
  get_json request = Ok (PDict d) ->
  d !! "inputs" = Some inputs ->
  embed_try request p =
    (match encode (model (globals p)) (texts_of inputs) with
     | Raise e => Raise e
     | Ok embeddings =>
         if isinstance_str inputs then
           match np_first embeddings with
           | Ok first => Ok (jsonify (tolist first))
           | Raise e => Raise e
           end
         else
           match np_iter embeddings with
           | Ok embs => Ok (jsonify (PList (map tolist embs)))
           | Raise e => Raise e
           end
     end, p).
Proof.
  intros Hjson Hkey. pose proof (truthy_dict _ _ _ Hkey) as Htrue.
  unfold embed_try, bind, lift, ret, global. rewrite Hjson, Htrue. simpl.
  rewrite Hkey. simpl.
  destruct (encode _ _) as [embeddings|e]; [|done].
  destruct (isinstance_str inputs).
  - by destruct (np_first embeddings).
  - by destruct (np_iter embeddings).
Qed.

(** A value the body of the [try] returns is the handler's answer. *)
Lemma embed_returns request p r :
  embed_try request p = (Ok r, p) -> embed request p = (Ok r, p).
Proof. intros Htry. unfold embed, try_except. by rewrite Htry. Qed.

(** An exception the body of the [try] raises is printed and answered
    with status 500. *)
Lemma embed_raises request p e :
  embed_try request p = (Raise e, p) ->
  embed request p =
    (Ok {| body := error_body (str e); status := 500 |},
     {| globals := globals p;
        stdout := stdout p ++ ["Error generating embeddings: " +:+ str e] |}).
Proof. intros Htry. unfold embed, try_except. by rewrite Htry. Qed.

(** The handler of [/embed] returns a response whatever the request. *)
Lemma embed_total request p :
  exists r p', embed request p = (Ok r, p').
Proof.
  unfold embed, try_except.
  destruct (embed_try request p) as [[r|e] p']; [by eauto|].
  unfold embed_except, bind, print, ret. by eauto.
Qed.

(** No view assigns a global. *)
Lemma embed_globals request p : globals (snd (embed request p)) = globals p.
Proof.
  pose proof (embed_try_frame request p) as Hframe.
  unfold embed, try_except.
  destruct (embed_try request p) as [[r|e] p']; simpl in *; by subst.
Qed.

Lemma handle_globals req p : globals (snd (handle req p)) = globals p.
Proof.
  destruct req as [request|]; unfold handle, dispatch.
  - pose proof (embed_globals request p) as Hg.
    by destruct (embed request p) as [[r|e] p'].
  - done.
Qed.

Lemma serve_globals history p : globals (serve history p) = globals p.
Proof.
  revert p. induction history as [|req rest IH]; intros p; [done|].
  simpl. by rewrite IH, handle_globals.
Qed.

(** The answer to a request is read off the globals alone: two processes
    with the same globals answer alike, whatever they have printed. *)
Lemma handle_reads_globals req p q :
  globals p = globals q -> fst (handle req p) = fst (handle req q).
Proof.
  intros Hg. destruct req as [request|]; unfold handle, dispatch.
  - run. destruct (get_json request) as [data|e]; simpl; [|done].
    destruct (truthy data); simpl; [|done].
    destruct (py_in "inputs" data) as [[|]|e]; simpl; [|done..].
    destruct (py_getitem data "inputs") as [inputs|e]; simpl; [|done].
    rewrite Hg. destruct (encode _ _) as [embeddings|e]; simpl; [|done].
    destruct (isinstance_str inputs); simpl.
    + by destruct (np_first embeddings).
    + by destruct (np_iter embeddings).
  - run. by rewrite Hg.
Qed.

(** A row of numbers converts to the list of those numbers. *)
Lemma tolist_row (v : list float) : tolist (Array (map Scalar v)) = PList (map PFloat v).
Proof. simpl. by rewrite map_map. Qed.

(** ** Shaping the answer *)

(** C1: when the parsed body binds [inputs] to a single string [s], the
    handler answers with status 200 and the body is the vector of [s]
    itself, a flat list of numbers with no list around it. *)
Theorem embed_single_string embedding request p (d : gmap string pyval) s :
  encodes (model (globals p)) embedding ->
  get_json request = Ok (PDict d) ->
  d !! "inputs" = Some (PStr s) ->
  embed request p
  = (Ok {| body := PList (map PFloat (embedding s)); status := 200 |}, p).
Proof.
  intros Hencode Hjson Hkey. apply embed_returns.
  rewrite (embed_try_inputs _ _ _ _ Hjson Hkey).
  pose proof (Hencode [s]) as Hrow. simpl in Hrow.
  unfold texts_of. simpl. rewrite Hrow. simpl.
  by rewrite map_map.
Qed.

(** C2: when the parsed body binds [inputs] to a sequence of N strings,
    the handler answers with status 200 and a list of exactly N vectors,
    the i-th being the vector of the i-th text. *)
Theorem embed_batch embedding request p (d : gmap string pyval) (texts : list string) :
  encodes (model (globals p)) embedding ->
  get_json request = Ok (PDict d) ->
  d !! "inputs" = Some (PList (map PStr texts)) ->
  exists vectors : list pyval,
    embed request p = (Ok {| body := PList vectors; status := 200 |}, p) /\
    length vectors = length texts /\
    forall (i : nat) (t : string),
      texts !! i = Some t -> vectors !! i = Some (PList (map PFloat (embedding t))).
Proof.
  intros Hencode Hjson Hkey.
  exists (map (fun t => PList (map PFloat (embedding t))) texts).
  split; [|split].
  - apply embed_returns.
    rewrite (embed_try_inputs _ _ _ _ Hjson Hkey).
    unfold texts_of. simpl. rewrite (Hencode texts). simpl.
    rewrite map_map. unfold jsonify. do 4 f_equal.
    apply map_ext. intros t. apply tolist_row.
  - apply length_map.
  - intros i t Hi.
    change (map ?f texts) with (f <$> texts).
    by rewrite list_lookup_fmap, Hi.
Qed.

(** C10: an empty list under [inputs] is not a missing field: the
    request passes line 21 and the list is handed to [encode]; when that
    returns an array with no rows, the handler answers with status 200
    and the empty list. *)
Theorem embed_empty_batch request p (d : gmap string pyval) :
  get_json request = Ok (PDict d) ->
  d !! "inputs" = Some (PList []) ->
  fst (embed request p)
  <> Ok {| body := error_body "Missing inputs field"; status := 400 |} /\
  (encode (model (globals p)) (PList []) = Ok (Array []) ->
   embed request p = (Ok {| body := PList []; status := 200 |}, p)).
Proof.
  intros Hjson Hkey.
  pose proof (embed_try_inputs _ p _ _ Hjson Hkey) as Htry.
  unfold texts_of in Htry. simpl in Htry. split.
  - unfold embed, try_except. rewrite Htry.
    destruct (encode _ _) as [embeddings|e]; [|done].
    by destruct (np_iter embeddings).
  - intros Hencode. apply embed_returns. by rewrite Htry, Hencode.
Qed.

(** ** Rejected and failed requests *)

(** An object that lacks the key fails the membership test of line 21. *)
Lemma py_in_object (d : gmap string pyval) key :
  contains_key (PDict d) key = false -> py_in key (PDict d) = Ok false.
Proof. simpl. by intros ->. Qed.

(** C3, as the code has it: when the parsed body is falsy ([null],
    [false], [0], an empty string, list or object) or [in] finds no
    [inputs] in it (an object without the key, a list without that
    element, a string without that substring), the handler answers with
    status 400 and [{"error": "Missing inputs field"}], and prints
    nothing. *)
Theorem embed_missing_inputs request p data :
  get_json request = Ok data ->
  truthy data = false \/ py_in "inputs" data = Ok false ->
  embed request p
  = (Ok {| body := error_body "Missing inputs field"; status := 400 |}, p).
Proof.
  intros Hjson Hmissing. apply embed_returns.
  unfold embed_try, bind, lift, ret. rewrite Hjson.
  destruct (truthy data) eqn:Htruthy; simpl; [|done].
  destruct Hmissing as [?|Hin]; [done|]. by rewrite Hin.
Qed.

(** C4, as the code has it: a body that is empty or is not JSON reaches
    the handler through [request.get_json()].  When the call raises, the
    exception is caught by the [except] clause and the answer has status
    500 and the exception's message; when it returns [None], the answer
    has status 400 and [{"error": "Missing inputs field"}]. *)
Theorem embed_unparsed_body request p :
  (forall e,
      get_json request = Raise e ->
      embed request p
      = (Ok {| body := error_body (str e); status := 500 |},
         {| globals := globals p;
            stdout := stdout p ++ ["Error generating embeddings: " +:+ str e] |})) /\
  (get_json request = Ok PNone ->
   embed request p
   = (Ok {| body := error_body "Missing inputs field"; status := 400 |}, p)).
Proof.
  split.
  - intros e Hjson. apply embed_raises.
    unfold embed_try, bind, lift. by rewrite Hjson.
  - intros Hjson. apply embed_returns.
    unfold embed_try, bind, lift, ret. by rewrite Hjson.
Qed.

(** The exceptions of [raised] are exactly those the body of the [try]
    raises. *)
Lemma embed_try_raised request p e :
  raised request p e <-> embed_try request p = (Raise e, p).
Proof.
  unfold embed_try, bind, lift, ret, global. split.
  - intros [Hjson|data Hjson Htruthy Hin|data inputs Hjson Htruthy Hin Hget Henc
            |data inputs embeddings Hjson Htruthy Hin Hget Henc Hshape];
      rewrite Hjson; [done|rewrite Htruthy; simpl..].
    + destruct Hin as [Hin|[Hin Hget]]; rewrite Hin; simpl; [done|].
      by rewrite Hget.
    + by rewrite Hin; simpl; rewrite Hget, Henc.
    + rewrite Hin; simpl; rewrite Hget, Henc.
      destruct (isinstance_str inputs); by rewrite Hshape.
  - destruct (get_json request) as [data|e'] eqn:Hjson;
      [|intros [= ->]; by apply raised_parsing].
    destruct (truthy data) eqn:Htruthy; simpl; [|done].
    destruct (py_in "inputs" data) as [[|]|e'] eqn:Hin; simpl; [|done|].
    + destruct (py_getitem data "inputs") as [inputs|e'] eqn:Hget;
        [|intros [= ->]; eapply raised_validating; eauto].
      destruct (encode _ _) as [embeddings|e'] eqn:Henc;
        [|intros [= ->]; eapply raised_encoding; eauto].
      intros Hshape. eapply raised_shaping; eauto.
      destruct (isinstance_str inputs).
      * destruct (np_first embeddings); by simplify_eq.
      * destruct (np_iter embeddings); by simplify_eq.
    + intros [= ->]. eapply raised_validating; eauto.
Qed.

(** C5: an exception raised while the request is parsed, validated or
    encoded is caught: the handler returns, its answer has status 500 and
    the body [{"error": m}] with [m] the exception's message (so no vector
    of the batch), and the process it leaves answers every later request
    as the process before would have. *)
Theorem embed_exception request p e :
  raised request p e ->
  exists p',
    embed request p = (Ok {| body := error_body (str e); status := 500 |}, p') /\
    globals p' = globals p /\
    stdout p' = (stdout p ++ ["Error generating embeddings: " +:+ str e])%list /\
    forall next, fst (handle next p') = fst (handle next p).
Proof.
  intros Hraised. apply embed_try_raised, embed_raises in Hraised.
  eexists. split; [exact Hraised|].
  split; [done|]. split; [done|].
  intros next. by apply handle_reads_globals.
Qed.

(** C6, as the code has it: a value under [inputs] that is neither a
    string nor a sequence of strings is not validated.  It is handed to
    [encode] as it came; the answer has status 500 and the exception's
    message when [encode] or the iteration over its result raises, and
    status 200 with the converted rows otherwise, never status 400. *)
Theorem embed_inputs_not_validated request p (d : gmap string pyval) inputs :
  get_json request = Ok (PDict d) ->
  d !! "inputs" = Some inputs ->
  string_or_strings inputs = false ->
  let answer :=
    match encode (model (globals p)) inputs with
    | Ok embeddings =>
        match np_iter embeddings with
        | Ok embs => {| body := PList (map tolist embs); status := 200 |}
        | Raise e => {| body := error_body (str e); status := 500 |}
        end
    | Raise e => {| body := error_body (str e); status := 500 |}
    end in
  fst (embed request p) = Ok answer /\ status answer <> 400.
Proof.
  intros Hjson Hkey Hinputs answer.
  assert (isinstance_str inputs = false) as Hstr by by destruct inputs.
  pose proof (embed_try_inputs _ p _ _ Hjson Hkey) as Htry.
  unfold texts_of in Htry. rewrite Hstr in Htry.
  unfold embed, try_except. rewrite Htry. subst answer.
  destruct (encode _ _) as [embeddings|e]; [|done].
  by destruct (np_iter embeddings).
Qed.

(** ** The process state *)

(** The body of the [try] aside, a handler prints at most one line. *)
Lemma handle_stdout req p :
  exists printed, stdout (snd (handle req p)) = (stdout p ++ printed)%list.
Proof.
  destruct req as [request|]; unfold handle, dispatch; [|by exists []; rewrite app_nil_r].
  pose proof (embed_try_frame request p) as Hframe.
  unfold embed, try_except.
  destruct (embed_try request p) as [[r|e] p']; simpl in *; subst p'.
  - exists []. by rewrite app_nil_r.
  - by eexists.
Qed.

(** C7: whatever requests the process has served since startup,
    [GET /health] is answered with status 200 and exactly
    [{"status": "ok", "model": m}], [m] being the value of [MODEL_ID] in
    the environment at startup or else the default identifier. *)
Theorem health_reports_model environ p0 history :
  startup environ = Ok p0 ->
  fst (handle GET_health (serve history p0))
  = {| body := PDict (<[ "status" := PStr "ok" ]>
                        {[ "model" := PStr (default "sentence-transformers/all-MiniLM-L6-v2"
                                                    (environ !! "MODEL_ID")) ]});
       status := 200 |}.
Proof.
  intros Hstart. unfold handle, dispatch, health, bind, global, ret. simpl.
  rewrite serve_globals.
  unfold startup in Hstart. destruct (load _); by simplify_eq.
Qed.

Lemma serve_stdout history p :
  exists printed, stdout (serve history p) = (stdout p ++ printed)%list.
Proof.
  revert p. induction history as [|req rest IH]; intros p; simpl.
  - exists []. by rewrite app_nil_r.
  - destruct (handle_stdout req p) as [first Hfirst].
    destruct (IH (snd (handle req p))) as [later Hlater].
    exists (first ++ later)%list. by rewrite Hlater, Hfirst, app_assoc.
Qed.

(** C8: the globals of the process are the model and its identifier, and
    no request changes them, whichever route it takes and however it ends:
    they are after one request, and after any sequence of requests, what
    they were before.  All that requests leave behind is what they
    printed. *)
Theorem requests_leave_globals req history p :
  globals (snd (handle req p)) = globals p /\
  globals (serve history p) = globals p /\
  exists printed, stdout (serve history p) = (stdout p ++ printed)%list.
Proof.
  split; [apply handle_globals|]. split; [apply serve_globals|apply serve_stdout].
Qed.

(** The answer to a request does not depend on the requests served
    before it. *)
Lemma handle_same_request history1 history2 req p :
  fst (handle req (serve history1 p)) = fst (handle req (serve history2 p)).
Proof. apply handle_reads_globals. by rewrite !serve_globals. Qed.

(** C9: two [/embed] requests that carry the same value under [inputs]
    get the same answer, vectors included, whatever else their bodies
    hold and whatever the process served before each of them; [encode]
    being a function of the loaded model and the texts, the answer is
    read off the request and the model alone. *)
Theorem embed_same_answer history1 history2 request1 request2 p
    (d1 d2 : gmap string pyval) inputs :
  get_json request1 = Ok (PDict d1) ->
  get_json request2 = Ok (PDict d2) ->
  d1 !! "inputs" = Some inputs ->
  d2 !! "inputs" = Some inputs ->
  fst (handle (POST_embed request1) (serve history1 p))
  = fst (handle (POST_embed request2) (serve history2 p)).
Proof.
  intros Hjson1 Hjson2 Hkey1 Hkey2.
  unfold handle, dispatch, embed, try_except.
  rewrite (embed_try_inputs _ _ _ _ Hjson1 Hkey1).
  rewrite (embed_try_inputs _ _ _ _ Hjson2 Hkey2).
  rewrite !serve_globals.
  destruct (encode _ _) as [embeddings|e]; [|done].
  destruct (isinstance_str inputs).
  - by destruct (np_first embeddings).
  - by destruct (np_iter embeddings).
Qed.

End Properties.

(** * Further properties of the handlers *)

(** A converted array holds numbers and lists alone. *)
Lemma tolist_numbers_only : forall a : ndarray, numbers_only (tolist a) = true.
Proof.
  fix IH 1. intros [x|items]; simpl; [done|].
  induction items as [|a items IHitems]; simpl; [done|].
  by rewrite IH, IHitems.
Qed.

Section Coverage.
Context `{SentenceTransformers}.
Implicit Types (p : Process) (request : Request) (data inputs : pyval) (e : exn).

(** The three ways [POST /embed] ends: an exception was raised and caught,
    the field was missing, or a converted array is returned. *)
Lemma handle_embed_cases request p :
  (exists e,
      raised request p e /\
      handle (POST_embed request) p
      = ({| body := error_body (str e); status := 500 |},
         {| globals := globals p;
            stdout := stdout p ++ ["Error generating embeddings: " +:+ str e] |})) \/
  (exists data,
      get_json request = Ok data /\
      (truthy data = false \/ py_in "inputs" data = Ok false) /\
      handle (POST_embed request) p
      = ({| body := error_body "Missing inputs field"; status := 400 |}, p)) \/
  (exists data inputs embeddings a,
      get_json request = Ok data /\
      truthy data = true /\
      py_in "inputs" data = Ok true /\
      py_getitem data "inputs" = Ok inputs /\
      encode (model (globals p)) (texts_of inputs) = Ok embeddings /\
      (if isinstance_str inputs then np_first embeddings = Ok a
       else a = embeddings /\ exists items, embeddings = Array items) /\
      handle (POST_embed request) p = ({| body := tolist a; status := 200 |}, p)).
Proof.
  unfold handle, dispatch, embed, try_except, embed_try, embed_except,
    bind, lift, ret, global, print.
  destruct (get_json request) as [data|e] eqn:Hjson; simpl;
    [|left; exists e; split; [by apply raised_parsing|done]].
  destruct (truthy data) eqn:Htruthy; simpl;
    [|right; left; exists data; by auto].
  destruct (py_in "inputs" data) as [[|]|e] eqn:Hin; simpl.
  - destruct (py_getitem data "inputs") as [inputs|e] eqn:Hget; simpl;
      [|left; exists e; split; [eapply raised_validating; eauto|done]].
    destruct (encode _ _) as [embeddings|e] eqn:Hencode; simpl;
      [|left; exists e; split; [eapply raised_encoding; eauto|done]].
    destruct (isinstance_str inputs) eqn:Hstr; simpl.
    + destruct (np_first embeddings) as [a|e] eqn:Hfirst; simpl.
      * right; right. exists data, inputs, embeddings, a.
        rewrite Hstr. by auto 10.
      * left; exists e; split; [|done].
        eapply raised_shaping; eauto. by rewrite Hstr.
    + destruct embeddings as [x|items]; simpl.
      * left; exists (TypeError "iteration over a 0-d array"); split; [|done].
        eapply raised_shaping; eauto. by rewrite Hstr.
      * right; right. exists data, inputs, (Array items), (Array items).
        rewrite Hstr. by eauto 10.
  - right; left; exists data; by auto.
  - left; exists e; split; [eapply raised_validating; eauto|done].
Qed.

(** X1: the answer of [POST /embed] has status 200, 400 or 500, and it
    has status 400 exactly when the parsed body is falsy or [in] finds no
    [inputs] in it; a body that holds the key is never answered with 400,
    whatever lies under the key. *)
Theorem embed_status request p :
  let r := fst (handle (POST_embed request) p) in
  (status r = 200 \/ status r = 400 \/ status r = 500) /\
  (status r = 400 <->
   exists data,
     get_json request = Ok data /\
     (truthy data = false \/ py_in "inputs" data = Ok false)).
Proof.
  destruct (handle_embed_cases request p)
    as [(e & Hraised & ->)|[(data & Hjson & Hmissing & ->)
       |(data & inputs & embeddings & a & Hjson & Htruthy & Hin & _ & _ & _ & ->)]];
    simpl; (split; [by auto|]); split; try done.
  - intros (data & Hjson & Hmissing). exfalso.
    destruct Hraised as [Hj|data' Hj Ht Hi|data' inputs Hj Ht Hi _ _
                        |data' inputs embeddings Hj Ht Hi _ _ _];
      rewrite Hjson in Hj; simplify_eq;
      destruct Hmissing as [?|?]; try destruct Hi as [?|[? ?]]; congruence.
  - by eauto.
  - intros (data' & Hjson' & Hmissing). exfalso.
    rewrite Hjson in Hjson'. simplify_eq. destruct Hmissing; congruence.
Qed.

(** X2: answers can be told apart by their shape.  A 200 answer of
    [POST /embed] holds numbers and lists of numbers alone; every other
    answer of that route is an object with the single key [error]. *)
Theorem embed_body_shape request p :
  let r := fst (handle (POST_embed request) p) in
  (status r = 200 -> numbers_only (body r) = true) /\
  (status r <> 200 -> exists message, body r = error_body message).
Proof.
  destruct (handle_embed_cases request p)
    as [(e & _ & ->)|[(data & _ & _ & ->)
       |(data & inputs & embeddings & a & _ & _ & _ & _ & _ & _ & ->)]]; simpl.
  - split; [done|]. by eauto.
  - split; [done|]. by eauto.
  - split; [intros _; apply tolist_numbers_only|done].
Qed.

(** X3: a request prints exactly when it is answered with status 500, and
    then one line, which carries the message of the answer's [error]
    field; a request answered otherwise, [GET /health] included, leaves
    the process as it found it. *)
Theorem handle_prints_on_500 req p :
  let r := fst (handle req p) in
  let p' := snd (handle req p) in
  (status r = 500 /\
   exists message,
     body r = error_body message /\
     p' = {| globals := globals p;
             stdout := stdout p ++ ["Error generating embeddings: " +:+ message] |}) \/
  (status r <> 500 /\ p' = p).
Proof.
  destruct req as [request|]; [|by right].
  destruct (handle_embed_cases request p)
    as [(e & _ & ->)|[(data & _ & _ & ->)
       |(data & inputs & embeddings & a & _ & _ & _ & _ & _ & _ & ->)]]; simpl.
  - left. split; [done|]. by eauto.
  - by right.
  - by right.
Qed.

(** One request adds one line to what was printed when its answer has
    status 500, and none otherwise. *)
Lemma handle_stdout_length req p :
  length (stdout (snd (handle req p)))
  = length (stdout p) + (if Nat.eqb (status (fst (handle req p))) 500 then 1 else 0).
Proof.
  destruct req as [request|]; [|simpl; lia].
  destruct (handle_embed_cases request p)
    as [(e & _ & ->)|[(data & _ & _ & ->)
       |(data & inputs & embeddings & a & _ & _ & _ & _ & _ & _ & ->)]]; simpl;
    [rewrite length_app; simpl|..]; lia.
Qed.

(** X4: over any sequence of requests the process prints one line per
    answer with status 500: what it has printed grows by as many lines
    as there are such answers. *)
Theorem serve_log_length history p :
  length (stdout (serve history p))
  = length (stdout p)
    + length (List.filter (fun r => Nat.eqb (status r) 500) (replies history p)).
Proof.
  revert p. induction history as [|req rest IH]; intros p; simpl; [lia|].
  rewrite IH, handle_stdout_length.
  destruct (Nat.eqb (status (fst (handle req p))) 500); simpl; lia.
Qed.

(** The answers to a sequence of requests are read off the globals. *)
Lemma replies_read_globals history p q :
  globals p = globals q -> replies history p = replies history q.
Proof.
  revert p q. induction history as [|req rest IH]; intros p q Hg; simpl; [done|].
  rewrite (handle_reads_globals req p q Hg). f_equal.
  apply IH. by rewrite !handle_globals.
Qed.

(** X5: nothing carries over from one request to the next: served one
    after another, the requests of a sequence get the answers each of
    them would get alone, failed requests before them or not. *)
Theorem replies_independent history p :
  replies history p = map (fun req => fst (handle req p)) history.
Proof.
  induction history as [|req rest IH]; simpl; [done|]. f_equal.
  rewrite <- IH. apply replies_read_globals, handle_globals.
Qed.

(** X6: a single string and the one-element list of that string are the
    same call of [encode]: the string is answered with a vector exactly
    when the list is answered with a non-empty list, and the vector is
    that list's first element. *)
Theorem embed_single_is_first_of_batch request1 request2 p
    (d1 d2 : gmap string pyval) s v :
  get_json request1 = Ok (PDict d1) ->
  d1 !! "inputs" = Some (PStr s) ->
  get_json request2 = Ok (PDict d2) ->
  d2 !! "inputs" = Some (PList [PStr s]) ->
  fst (embed request1 p) = Ok {| body := v; status := 200 |} <->
  exists rest,
    fst (embed request2 p) = Ok {| body := PList (v :: rest); status := 200 |}.
Proof.
  intros Hjson1 Hkey1 Hjson2 Hkey2. unfold embed, try_except.
  rewrite (embed_try_inputs _ _ _ _ Hjson1 Hkey1).
  rewrite (embed_try_inputs _ _ _ _ Hjson2 Hkey2).
  unfold texts_of. simpl.
  destruct (encode _ _) as [[x|[|row rows]]|e]; simpl;
    try (split; [intros [=]|intros [rest [=]]]; fail).
  split.
  - intros [= <-]. by eauto.
  - by intros [rest [= <- _]].
Qed.

(** X8: the model that answers [POST /embed] is, after any sequence of
    requests, the one that was loaded at startup for the identifier
    [GET /health] reports. *)
Theorem served_model_is_reported environ p0 history :
  startup environ = Ok p0 ->
  load (model_name (globals (serve history p0)))
  = Ok (model (globals (serve history p0))).
Proof.
  intros Hstart. rewrite serve_globals. unfold startup in Hstart.
  destruct (load _) as [m|e] eqn:Hload; by simplify_eq.
Qed.

End Coverage.

(** X7: only a JSON object reaches the model.  When the body parses to
    anything else, the answer is settled before [encode] is called: it is
    the same under any library and in any process, and it never has
    status 200. *)
Theorem embed_non_object (L1 L2 : SentenceTransformers) request
    (p1 : @Process L1) (p2 : @Process L2) data :
  get_json request = Ok data ->
  (forall d : gmap string pyval, data <> PDict d) ->
  fst (@handle L1 (POST_embed request) p1) = fst (@handle L2 (POST_embed request) p2) /\
  status (fst (@handle L1 (POST_embed request) p1)) <> 200.
Proof.
  intros Hjson Hobject.
  unfold handle, dispatch, embed, try_except, embed_try, embed_except,
    bind, lift, ret, global, print.
  rewrite Hjson.
  destruct data as [|b|n|x|s|items|d]; simpl; [..|by destruct (Hobject d)].
  - done.
  - by destruct b.
  - by destruct (n =? 0)%Z.
  - by destruct (PrimFloat.eqb x 0).
  - destruct (String.eqb s ""); simpl; [done|].
    by destruct (str_contains "inputs" s).
  - destruct items as [|item items]; simpl; [done|].
    by destruct (str_eq "inputs" item || existsb (str_eq "inputs") items).
Qed.

(** * The application run on the stub encoder *)

Lemma stub_rows_texts (texts : list string) :
  stub_rows (map PStr texts)
  = Ok (map (fun t => Array (map Scalar (stub_embedding t))) texts).
Proof.
  induction texts as [|t texts IH]; [done|]. simpl. by rewrite IH.
Qed.

(** The stub keeps the contract of spec 4.1. *)
Lemma stub_encodes : @encodes stub_library tt stub_embedding.
Proof. intros texts. simpl. unfold stub_encode. by rewrite stub_rows_texts. Qed.

(** [POST /embed] with the body [{"inputs": "hello world"}]. *)
Lemma embed_single_string_witness :
  @embed stub_library
    {| get_json := Ok (PDict {[ "inputs" := PStr "hello world" ]}) |} stub_process
  = (Ok {| body := PList [PFloat 0; PFloat 1]; status := 200 |}, stub_process).
Proof.
  apply (@embed_single_string stub_library stub_embedding _ stub_process
           {[ "inputs" := PStr "hello world" ]} "hello world");
    [apply stub_encodes | reflexivity | reflexivity].
Defined.

(** [POST /embed] with the body [{"inputs": ["a", "b"]}]. *)
Lemma embed_batch_witness :
  exists vectors : list pyval,
    @embed stub_library
      {| get_json := Ok (PDict {[ "inputs" := PList [PStr "a"; PStr "b"] ]}) |}
      stub_process
    = (Ok {| body := PList vectors; status := 200 |}, stub_process) /\
    length vectors = 2 /\
    forall (i : nat) (t : string),
      ["a"; "b"] !! i = Some t ->
      vectors !! i = Some (PList (map PFloat (stub_embedding t))).
Proof.
  apply (@embed_batch stub_library stub_embedding _ stub_process
           {[ "inputs" := PList [PStr "a"; PStr "b"] ]} ["a"; "b"]);
    [apply stub_encodes | reflexivity | reflexivity].
Defined.

(** [POST /embed] with the body [{"inputs": []}]. *)
Lemma embed_empty_batch_witness :
  @embed stub_library {| get_json := Ok (PDict {[ "inputs" := PList [] ]}) |} stub_process
  = (Ok {| body := PList []; status := 200 |}, stub_process).
Proof.
  exact (proj2 (@embed_empty_batch stub_library
                  {| get_json := Ok (PDict {[ "inputs" := PList [] ]}) |} stub_process
                  {[ "inputs" := PList [] ]} eq_refl eq_refl) eq_refl).
Defined.

(** [POST /embed] with the body [{}]. *)
Lemma embed_missing_inputs_witness :
  @embed stub_library {| get_json := Ok (PDict ∅) |} stub_process
  = (Ok {| body := error_body "Missing inputs field"; status := 400 |}, stub_process).
Proof.
  apply (@embed_missing_inputs stub_library _ stub_process (PDict ∅));
    [reflexivity | left; reflexivity].
Defined.

(** C3 as the specification states it fails on the body [1]: it parses
    as JSON and holds no key [inputs], the membership test of line 21
    raises [TypeError], and the answer has status 500. *)
Lemma embed_number_body :
  contains_key (PInt 1) "inputs" = false /\
  @embed stub_library {| get_json := Ok (PInt 1) |} stub_process
  = (Ok {| body := error_body "argument of type 'int' is not iterable";
           status := 500 |},
     {| globals := globals stub_process;
        stdout := ["Error generating embeddings: argument of type 'int' is not iterable"] |}).
Proof. split; reflexivity. Qed.

(** [POST /embed] with a body Flask cannot parse. *)
Lemma embed_unparsed_body_witness :
  @embed stub_library {| get_json := Raise BadRequest |} stub_process
  = (Ok {| body := error_body (str BadRequest); status := 500 |},
     {| globals := globals stub_process;
        stdout := stdout stub_process
                  ++ ["Error generating embeddings: " +:+ str BadRequest] |}).
Proof.
  exact (proj1 (@embed_unparsed_body stub_library {| get_json := Raise BadRequest |}
                  stub_process) BadRequest eq_refl).
Defined.

(** C4 as the specification states it fails on a body that does not
    parse: [get_json] raises [BadRequest], and the answer has status 500,
    not a status of the 400 class. *)
Lemma embed_bad_request_is_500 :
  get_json {| get_json := Raise BadRequest |} = Raise BadRequest /\
  status (fst (@handle stub_library
                 (POST_embed {| get_json := Raise BadRequest |}) stub_process))
  = 500.
Proof. split; reflexivity. Qed.

(** [POST /embed] with the body [{"inputs": [1]}]: the stub raises. *)
Lemma embed_exception_witness :
  exists p',
    @embed stub_library {| get_json := Ok (PDict {[ "inputs" := PList [PInt 1] ]}) |}
      stub_process
    = (Ok {| body := error_body "expected str"; status := 500 |}, p') /\
    globals p' = globals stub_process /\
    stdout p' = ["Error generating embeddings: expected str"] /\
    forall next, fst (handle next p') = fst (handle next stub_process).
Proof.
  apply (@embed_exception stub_library _ stub_process (TypeError "expected str")).
  apply (@raised_encoding stub_library _ _ _
           (PDict {[ "inputs" := PList [PInt 1] ]}) (PList [PInt 1]));
    reflexivity.
Defined.

(** [POST /embed] with the body [{"inputs": ["a", 5]}]. *)
Lemma embed_inputs_not_validated_witness :
  fst (@embed stub_library
         {| get_json := Ok (PDict {[ "inputs" := PList [PStr "a"; PInt 5] ]}) |}
         stub_process)
  = Ok {| body := error_body "expected str"; status := 500 |} /\
  status {| body := error_body "expected str"; status := 500 |} <> 400.
Proof.
  apply (@embed_inputs_not_validated stub_library _ stub_process
           {[ "inputs" := PList [PStr "a"; PInt 5] ]} (PList [PStr "a"; PInt 5]));
    reflexivity.
Defined.

(** C6 as the specification states it fails on [{"inputs": ["a", 5]}]:
    the list is not a sequence of strings, it reaches [encode]
    unvalidated, and the answer has the status 500 of a caught exception,
    not 400. *)
Lemma embed_number_in_batch :
  string_or_strings (PList [PStr "a"; PInt 5]) = false /\
  @embed stub_library
    {| get_json := Ok (PDict {[ "inputs" := PList [PStr "a"; PInt 5] ]}) |}
    stub_process
  = (Ok {| body := error_body "expected str"; status := 500 |},
     {| globals := globals stub_process;
        stdout := ["Error generating embeddings: expected str"] |}).
Proof. split; reflexivity. Qed.

(** [GET /health] after a failed and a successful [/embed], in a process
    started with [MODEL_ID=my-model]. *)
Lemma health_reports_model_witness :
  fst (@handle stub_library GET_health
         (serve [POST_embed {| get_json := Raise BadRequest |};
                 POST_embed {| get_json := Ok (PDict {[ "inputs" := PStr "a" ]}) |}]
            stub_started))
  = {| body := PDict (<[ "status" := PStr "ok" ]> {[ "model" := PStr "my-model" ]});
       status := 200 |}.
Proof.
  exact (@health_reports_model stub_library {[ "MODEL_ID" := "my-model" ]}
           stub_started _ eq_refl).
Defined.

(** Two [/embed] requests for the text [a], the second with a further key,
    one after a failed request and one after a health check. *)
Lemma embed_same_answer_witness :
  fst (@handle stub_library
         (POST_embed {| get_json := Ok (PDict {[ "inputs" := PStr "a" ]}) |})
         (serve [POST_embed {| get_json := Raise BadRequest |}] stub_process))
  = fst (@handle stub_library
           (POST_embed {| get_json :=
                            Ok (PDict (<[ "inputs" := PStr "a" ]> {[ "id" := PInt 7 ]})) |})
           (serve [GET_health] stub_process)).
Proof.
  apply (@embed_same_answer stub_library _ _ _ _ stub_process
           {[ "inputs" := PStr "a" ]} (<[ "inputs" := PStr "a" ]> {[ "id" := PInt 7 ]})
           (PStr "a"));
    reflexivity.
Defined.

(** The text [a] alone and as a one-element list. *)
Lemma embed_single_is_first_of_batch_witness :
  fst (@embed stub_library {| get_json := Ok (PDict {[ "inputs" := PStr "a" ]}) |}
         stub_process)
  = Ok {| body := PList [PFloat 1; PFloat 0]; status := 200 |} <->
  exists rest,
    fst (@embed stub_library
           {| get_json := Ok (PDict {[ "inputs" := PList [PStr "a"] ]}) |} stub_process)
    = Ok {| body := PList (PList [PFloat 1; PFloat 0] :: rest); status := 200 |}.
Proof.
  apply (@embed_single_is_first_of_batch stub_library _ _ stub_process
           {[ "inputs" := PStr "a" ]} {[ "inputs" := PList [PStr "a"] ]} "a");
    reflexivity.
Defined.

(** [POST /embed] with the body [["inputs"]], in two processes. *)
Lemma embed_non_object_witness :
  fst (@handle stub_library
         (POST_embed {| get_json := Ok (PList [PStr "inputs"]) |}) stub_process)
  = fst (@handle stub_library
           (POST_embed {| get_json := Ok (PList [PStr "inputs"]) |}) stub_started) /\
  status (fst (@handle stub_library
                 (POST_embed {| get_json := Ok (PList [PStr "inputs"]) |}) stub_process))
  <> 200.
Proof.
  apply (@embed_non_object stub_library stub_library _ stub_process stub_started
           (PList [PStr "inputs"])); [reflexivity|discriminate].
Defined.

(** The stub process started under [MODEL_ID=my-model], after a failed
    request and a health check. *)
Lemma served_model_is_reported_witness :
  @load stub_library
    (model_name (globals (serve [POST_embed {| get_json := Raise BadRequest |}; GET_health]
                            stub_started)))
  = Ok (model (globals (serve [POST_embed {| get_json := Raise BadRequest |}; GET_health]
                          stub_started))).
Proof.
  exact (@served_model_is_reported stub_library {[ "MODEL_ID" := "my-model" ]}
           stub_started _ eq_refl).
Defined.
